(** * Hyprland workspace manager: a shallow embedding of
    [hyprland-scripts/workspace-manager.py] and the properties of its
    command-line contract.

    The script shells out to [hyprctl], decodes its JSON answer, prints
    text and leaves an exit status.  The embedding keeps that shape:

    - the strings the script builds itself (its constants, the command
      line, the argument vectors, the failure texts) are [string]s, one
      character per code point (code points 0 to 255 are covered);
    - a [str] in general, and so the captured output of a command, every
      string decoded from JSON and every line printed, is a [text]: a
      list of code points of any size, lone surrogates included;
    - Python values decoded from JSON are the inductive type [pyval];
    - the interpreter's effects (lines printed on standard output, commands
      handed to [subprocess.run], exceptions raised) are threaded by the
      monad [Py];
    - what lies outside the script is an input of the model: the outcome
      of [subprocess.run] and of [json.loads] is read from a [World], the
      outcome of [ArgumentParser.parse_args] is a [ParseOutcome]. *)

From Stdlib Require Import String Ascii List ZArith NArith Bool Lia DecimalString.
From ExtLib Require Import Structures.Monad Structures.MonadExc.
Import ListNotations.
Import MonadNotation.
Local Open Scope string_scope.
Local Open Scope Z_scope.
Local Open Scope monad_scope.

Set Implicit Arguments.

(** The element type of a list literal and the component types of a pair
    are read off the type expected for it, so that a string literal in
    them stands for its [text] where a [text] is expected. *)
Arguments cons {A} & a l.
Arguments pair {A B} & a b.

(** ** Python strings *)

Module PyStr.

(** [str.isspace] on one code point below 256: TAB, LF, VT, FF, CR, the
    four separators FS GS RS US, SPACE, NEL and NBSP. *)
Definition isspace (c : ascii) : bool :=
  let n := nat_of_ascii c in
  ((9 <=? n) && (n <=? 13) || (28 <=? n) && (n <=? 32)
   || (n =? 133) || (n =? 160))%nat.

Definition is_empty (s : string) : bool :=
  match s with EmptyString => true | String _ _ => false end.

(** [flush cur rest]: the word under construction ends here. *)
Definition flush (cur : string) (rest : list string) : list string :=
  if is_empty cur then rest else cur :: rest.

(** [s.split()] with no separator: the maximal runs of characters that
    are not whitespace, in order; [cur] is the run read so far. *)
Fixpoint split_from (cur s : string) : list string :=
  match s with
  | EmptyString => flush cur []
  | String c s' =>
      if isspace c then flush cur (split_from EmptyString s')
      else split_from (cur ++ String c EmptyString) s'
  end.

Definition split (s : string) : list string := split_from EmptyString s.

(** [sep.join(parts)]. *)
Fixpoint join (sep : string) (parts : list string) : string :=
  match parts with
  | [] => EmptyString
  | [p] => p
  | p :: ps => p ++ sep ++ join sep ps
  end.

Fixpoint contains_char (c : ascii) (s : string) : bool :=
  match s with
  | EmptyString => false
  | String d s' => Ascii.eqb c d || contains_char c s'
  end.

Definition hexdigit (n : nat) : ascii :=
  match n with
  | 0 => "0" | 1 => "1" | 2 => "2" | 3 => "3" | 4 => "4" | 5 => "5"
  | 6 => "6" | 7 => "7" | 8 => "8" | 9 => "9" | 10 => "a" | 11 => "b"
  | 12 => "c" | 13 => "d" | 14 => "e" | _ => "f"
  end%nat%char.

Definition backslash : ascii := ascii_of_nat 92.
Definition squote : ascii := ascii_of_nat 39.
Definition dquote : ascii := ascii_of_nat 34.

(** [str.isprintable] on one code point below 256. *)
Definition isprintable (c : ascii) : bool :=
  let n := nat_of_ascii c in
  ((32 <=? n) && (n <=? 126) || (161 <=? n) && negb (n =? 173))%nat.

(** One character of [repr(s)], for the chosen quote. *)
Definition repr_char (quote c : ascii) : string :=
  let n := nat_of_ascii c in
  if Ascii.eqb c quote || Ascii.eqb c backslash
  then String backslash (String c EmptyString)
  else if (n =? 9)%nat then String backslash "t"
  else if (n =? 10)%nat then String backslash "n"
  else if (n =? 13)%nat then String backslash "r"
  else if isprintable c then String c EmptyString
  else String backslash
         (String "x" (String (hexdigit (n / 16)) (String (hexdigit (n mod 16)) EmptyString))).

Fixpoint repr_body (quote : ascii) (s : string) : string :=
  match s with
  | EmptyString => EmptyString
  | String c s' => repr_char quote c ++ repr_body quote s'
  end.

(** [repr(s)]: single quotes, unless [s] has a single quote and no
    double quote. *)
Definition repr (s : string) : string :=
  let quote :=
    if contains_char squote s && negb (contains_char dquote s)
    then dquote else squote in
  String quote (repr_body quote s ++ String quote EmptyString).

(** [str(n)] for an [int]. *)
Definition of_int (n : Z) : string := NilZero.string_of_int (Z.to_int n).

End PyStr.

(** ** Text: a [str] of any code points *)

(** A [str] as the interpreter holds it: its code points, in order.  A
    [str] decoded from JSON can hold any code point, a lone surrogate
    (U+D800 to U+DFFF, written with a [\u] escape) included. *)
Definition text : Type := list N.

Module PyText.

(** The text of a [string]. *)
Fixpoint of_string (s : string) : text :=
  match s with
  | EmptyString => []
  | String c s' => N_of_ascii c :: of_string s'
  end.

Fixpoint eqb (a b : text) : bool :=
  match a, b with
  | [], [] => true
  | x :: a', y :: b' => N.eqb x y && eqb a' b'
  | _, _ => false
  end.

Definition is_surrogate (cp : N) : bool := ((55296 <=? cp) && (cp <=? 57343))%N.

(** Standard output encodes in UTF-8 and is strict about errors, as the
    interpreter sets it up: it can write every code point but the
    surrogates. *)
Definition encodable (t : text) : bool :=
  forallb (fun cp => negb (is_surrogate cp)) t.

(** [width] hexadecimal digits of [n], the most significant first. *)
Fixpoint hex (width : nat) (n : N) : text :=
  match width with
  | O => []
  | S width' =>
      (hex width' (n / 16)
       ++ [N_of_ascii (PyStr.hexdigit (N.to_nat (n mod 16)))])%list
  end.

(** [str.isprintable] on one code point: fixed below 256; from 256 on it
    is the answer [db] of the interpreter's Unicode database, which never
    holds a surrogate printable. *)
Definition isprintable (db : N -> bool) (cp : N) : bool :=
  if (cp <? 256)%N then PyStr.isprintable (ascii_of_N cp)
  else negb (is_surrogate cp) && db cp.

Definition backslash : N := 92%N.
Definition squote : N := 39%N.
Definition dquote : N := 34%N.

(** One code point of [repr(t)], for the chosen quote. *)
Definition repr_char (db : N -> bool) (quote cp : N) : text :=
  if N.eqb cp quote || N.eqb cp backslash then [backslash; cp]
  else if N.eqb cp 9 then backslash :: of_string "t"
  else if N.eqb cp 10 then backslash :: of_string "n"
  else if N.eqb cp 13 then backslash :: of_string "r"
  else if isprintable db cp then [cp]
  else if (cp <? 256)%N then (backslash :: of_string "x" ++ hex 2 cp)%list
  else if (cp <? 65536)%N then (backslash :: of_string "u" ++ hex 4 cp)%list
  else (backslash :: of_string "U" ++ hex 8 cp)%list.

(** [repr(t)]: single quotes, unless [t] has a single quote and no double
    quote. *)
Definition repr (db : N -> bool) (t : text) : text :=
  let quote :=
    if existsb (N.eqb squote) t && negb (existsb (N.eqb dquote) t)
    then dquote else squote in
  (quote :: flat_map (repr_char db quote) t ++ [quote])%list.

(** [sep.join(parts)]. *)
Fixpoint join (sep : text) (parts : list text) : text :=
  match parts with
  | [] => []
  | [p] => p
  | p :: ps => (p ++ sep ++ join sep ps)%list
  end.

End PyText.

Coercion PyText.of_string : string >-> text.

(** ** Python values *)

(** What [json.loads] can return.  A [float] is kept as the text [repr]
    gives for it: the script only formats a value and tests it for
    truth, and both are read off that text. *)
#[warnings="-register-all"] Inductive pyval : Type :=
| PNone
| PBool (b : bool)
| PInt (n : Z)
| PFloat (repr : string)
| PStr (s : text)
| PList (elems : list pyval)
| PDict (items : list (text * pyval)).

(** The exceptions the script can meet.  [CalledProcessError] and
    [JSONDecodeError] carry the text [str(e)] gives. *)
Inductive exn : Type :=
| CalledProcessError (detail : string)
| JSONDecodeError (detail : string)
| OSError
| UnicodeDecodeError
| UnicodeEncodeError
| ValueError
| RecursionError
| TypeError
| KeyError (key : text)
| AttributeError
| SystemExit (code : Z).

Module PyVal.

(** [bool(v)]. *)
Definition truthy (v : pyval) : bool :=
  match v with
  | PNone => false
  | PBool b => b
  | PInt n => negb (n =? 0)
  | PFloat t => negb (String.eqb t "0.0" || String.eqb t "-0.0")
  | PStr s => match s with [] => false | _ :: _ => true end
  | PList l => match l with [] => false | _ :: _ => true end
  | PDict d => match d with [] => false | _ :: _ => true end
  end.

(** [repr(v)]; [db] is the Unicode database, see [PyText.isprintable]. *)
Fixpoint repr (db : N -> bool) (v : pyval) : text :=
  match v with
  | PNone => "None"
  | PBool true => "True"
  | PBool false => "False"
  | PInt n => PyStr.of_int n
  | PFloat t => t
  | PStr s => PyText.repr db s
  | PList l =>
      (PyText.of_string "[" ++ PyText.join ", " (map (repr db) l)
         ++ PyText.of_string "]")%list
  | PDict d =>
      (PyText.of_string "{"
         ++ PyText.join ", "
              (map (fun kv : text * pyval =>
                      let (k, x) := kv in
                      PyText.repr db k ++ PyText.of_string ": " ++ repr db x) d)
         ++ PyText.of_string "}")%list
  end.

(** [str(v)], which is also [format(v, '')], the conversion an f-string
    field [{v}] applies. *)
Definition str (db : N -> bool) (v : pyval) : text :=
  match v with
  | PStr s => s
  | _ => repr db v
  end.

(** Key lookup in the items of a [dict]. *)
Fixpoint lookup (key : text) (d : list (text * pyval)) : option pyval :=
  match d with
  | [] => None
  | (k, x) :: d' => if PyText.eqb key k then Some x else lookup key d'
  end.

(** [v[key]] for a [str] key. *)
Definition getitem (v : pyval) (key : text) : exn + pyval :=
  match v with
  | PDict d =>
      match lookup key d with
      | Some x => inr x
      | None => inl (KeyError key)
      end
  | _ => inl TypeError
  end.

(** [v.get(key, default)]. *)
Definition get (v : pyval) (key : text) (default : pyval) : exn + pyval :=
  match v with
  | PDict d =>
      match lookup key d with
      | Some x => inr x
      | None => inr default
      end
  | _ => inl AttributeError
  end.

(** The values a [for] loop over [v] visits. *)
Definition iter (v : pyval) : exn + list pyval :=
  match v with
  | PList l => inr l
  | PStr s => inr (map (fun cp => PStr [cp]) s)
  | PDict d => inr (map (fun kv : text * pyval => PStr (fst kv)) d)
  | _ => inl TypeError
  end.

End PyVal.

(** Induction on a value, through the elements of its arrays and the
    values of its objects. *)
Section ValueFacts.

Variable P : pyval -> Prop.
Hypothesis HNone : P PNone.
Hypothesis HBool : forall b, P (PBool b).
Hypothesis HInt : forall n, P (PInt n).
Hypothesis HFloat : forall t, P (PFloat t).
Hypothesis HStr : forall s, P (PStr s).
Hypothesis HList : forall l, Forall P l -> P (PList l).
Hypothesis HDict :
  forall d, Forall (fun kv : text * pyval => P (snd kv)) d -> P (PDict d).

Fixpoint pyval_nested_ind (v : pyval) : P v :=
  match v with
  | PNone => HNone
  | PBool b => HBool b
  | PInt n => HInt n
  | PFloat t => HFloat t
  | PStr s => HStr s
  | PList l =>
      @HList l
        ((fix elems (l : list pyval) : Forall P l :=
            match l with
            | [] => Forall_nil P
            | x :: l' => Forall_cons x (pyval_nested_ind x) (elems l')
            end) l)
  | PDict d =>
      @HDict d
        ((fix items (d : list (text * pyval))
            : Forall (fun kv : text * pyval => P (snd kv)) d :=
            match d with
            | [] => Forall_nil _
            | kv :: d' =>
                Forall_cons kv (pyval_nested_ind (snd kv)) (items d')
            end) d)
  end.

End ValueFacts.

(** ** Effects *)

(** What a run leaves behind: the texts [print] wrote, oldest first (each
    one goes to standard output followed by a newline), and the argument
    vectors handed to [subprocess.run], oldest first, whether or not the
    command could be started. *)
Record Console : Type := {
  printed : list text;
  spawned : list (list string)
}.

Definition fresh : Console := {| printed := []; spawned := [] |}.

(** A computation of the interpreter: from the console so far to a result
    or a raised exception, and the console after.  What was printed before
    an exception is raised stays printed. *)
Definition Py (A : Type) : Type := Console -> (exn + A) * Console.

#[global] Instance Monad_Py : Monad Py := {
  ret := fun _ a c => (inr a, c);
  bind := fun _ _ m k c =>
    match m c with
    | (inr a, c') => k a c'
    | (inl e, c') => (inl e, c')
    end
}.

(** [catch m h] is [try: m / except ...: h]; a handler re-raises what its
    [except] clauses do not name. *)
#[global] Instance Exc_Py : MonadExc exn Py := {
  raise := fun _ e c => (inl e, c);
  catch := fun _ m h c =>
    match m c with
    | (inl e, c') => h e c'
    | (inr a, c') => (inr a, c')
    end
}.

(** [print(line)]: the line is written when standard output can encode
    it; otherwise nothing is written and [UnicodeEncodeError] is
    raised. *)
Definition print (line : text) : Py unit :=
  fun c =>
    if PyText.encodable line then
      (inr tt, {| printed := printed c ++ [line]; spawned := spawned c |})
    else (inl UnicodeEncodeError, c).

(** An argument vector is handed to [subprocess.run]. *)
Definition spawn (argv : list string) : Py unit :=
  fun c => (inr tt, {| printed := printed c; spawned := spawned c ++ [argv] |}).

(** Lifting of the pure operations that can raise. *)
Definition lift {A : Type} (r : exn + A) : Py A :=
  match r with
  | inr a => ret a
  | inl e => raise e
  end.

(** [for x in xs: body(x)]. *)
Fixpoint for_each {A : Type} (xs : list A) (body : A -> Py unit) : Py unit :=
  match xs with
  | [] => ret tt
  | x :: xs' => body x ;; for_each xs' body
  end.

(** ** The world outside the script *)

(** What becomes of a command handed to [subprocess.run]: it runs and
    exits with a return code, and what it wrote on its standard output
    and standard error is either text ([Exited], with the text of the
    standard output) or bytes that cannot be decoded as text
    ([Garbled]); or it cannot be started at all (no such executable, no
    permission). *)
Inductive RunOutcome : Type :=
| Exited (returncode : Z) (output : text)
| Garbled (returncode : Z)
| NotStarted.

(** What [json.loads] makes of a text: a value; a [JSONDecodeError] whose
    [str] is [detail]; a [ValueError], for an integer literal of more
    digits than the interpreter converts; a [RecursionError], for a
    nesting too deep. *)
Inductive LoadsOutcome : Type :=
| Decoded (v : pyval)
| Invalid (detail : string)
| TooManyDigits
| TooDeep.

Record World : Type := {
  (** the fate of the command with this argument vector *)
  run_outcome : list string -> RunOutcome;
  (** [str(CalledProcessError(returncode, argv))] *)
  failure_detail : list string -> Z -> string;
  (** [json.loads] *)
  json_loads_outcome : text -> LoadsOutcome;
  (** [str.isprintable] on the code points from 256 *)
  unicode_printable : N -> bool
}.

(** [subprocess.run(argv, check=True)].  With [capture] (the arguments
    [capture_output=True, text=True]) the output of the command is read
    and decoded first, which raises [UnicodeDecodeError] on bytes that
    are not text; without it the output is not read.  Then the return
    code is checked: the result, holding the captured standard output,
    is returned for status 0, and [CalledProcessError] is raised for
    another status.  A command that cannot be started raises an
    [OSError]. *)
Definition subprocess_run (w : World) (argv : list string) (capture : bool)
  : Py text :=
  spawn argv ;;
  match run_outcome w argv with
  | Exited rc output =>
      if rc =? 0 then ret (if capture then output else [])
      else raise (CalledProcessError (failure_detail w argv rc))
  | Garbled rc =>
      if capture then raise UnicodeDecodeError
      else if rc =? 0 then ret []
      else raise (CalledProcessError (failure_detail w argv rc))
  | NotStarted => raise OSError
  end.

(** [json.loads(text)]. *)
Definition json_loads (w : World) (t : text) : Py pyval :=
  match json_loads_outcome w t with
  | Decoded v => ret v
  | Invalid detail => raise (JSONDecodeError detail)
  | TooManyDigits => raise ValueError
  | TooDeep => raise RecursionError
  end.

(** The command line as [argparse] sees it.  The parser has a positional
    [action] with [choices=["list", "create"]] and an optional [--name]. *)
Record Namespace : Type := {
  action : string;
  name : option string
}.

(** [parser.parse_args()] returns a namespace, or leaves through
    [SystemExit] after writing its own message: code 2 with a usage error
    (no action, an action outside the choices, an unknown option), code 0
    after [--help]. *)
Inductive ParseOutcome : Type :=
| Parsed (args : Namespace)
| ParserExit (code : Z).

Definition parse_args (cli : ParseOutcome) : Py Namespace :=
  match cli with
  | Parsed args => ret args
  | ParserExit code => raise (SystemExit code)
  end.

(** [sys.exit(code)]. *)
Definition sys_exit {A : Type} (code : Z) : Py A := raise (SystemExit code).

(** ** The script *)

(** [get_workspaces()]. *)
Definition get_workspaces (w : World) : Py pyval :=
  catch
    (let cmd := "hyprctl workspaces -j" in
     result <- subprocess_run w (PyStr.split cmd) true ;;
     json_loads w result)
    (fun e =>
       match e with
       | CalledProcessError detail =>
           print ("Error getting workspaces: " ++ detail) ;;
           ret (PList [])
       | JSONDecodeError detail =>
           print ("Error parsing workspaces: " ++ detail) ;;
           ret (PList [])
       | _ => raise e
       end).

(** [create_workspace(name)]. *)
Definition create_workspace (w : World) (name : string) : Py unit :=
  catch
    (let cmd := "hyprctl dispatch workspace name:" ++ name in
     subprocess_run w (PyStr.split cmd) false ;;
     print ("Created workspace: " ++ name))
    (fun e =>
       match e with
       | CalledProcessError detail =>
           print ("Error creating workspace: " ++ detail)
       | _ => raise e
       end).

(** The text of the f-string of [list_workspaces] for the three values
    of its fields. *)
Definition format_line (w : World) (id nm windows : pyval) : text :=
  (PyText.of_string "  " ++ PyVal.str (unicode_printable w) id
     ++ PyText.of_string ": " ++ PyVal.str (unicode_printable w) nm
     ++ PyText.of_string " (" ++ PyVal.str (unicode_printable w) windows
     ++ PyText.of_string " windows)")%list.

(** The body of the loop of [list_workspaces]: the three fields of the
    f-string are evaluated left to right, then the line is printed. *)
Definition print_workspace (w : World) (ws : pyval) : Py unit :=
  id <- lift (PyVal.getitem ws "id") ;;
  nm <- lift (PyVal.get ws "name" (PStr "Unnamed")) ;;
  windows <- lift (PyVal.getitem ws "windows") ;;
  print (format_line w id nm windows).

(** [list_workspaces()]. *)
Definition list_workspaces (w : World) : Py unit :=
  workspaces <- get_workspaces w ;;
  if negb (PyVal.truthy workspaces) then
    print "No workspaces found"
  else
    print "Active Workspaces:" ;;
    elems <- lift (PyVal.iter workspaces) ;;
    for_each elems (print_workspace w).

(** [not args.name]: the option was not given ([None]), or was given the
    empty string. *)
Definition no_name (nm : option string) : bool :=
  match nm with
  | Some n => PyStr.is_empty n
  | None => true
  end.

(** [args.name] as the argument of [create_workspace], where an f-string
    formats it: the string itself, or the text of [None]. *)
Definition name_text (nm : option string) : string :=
  match nm with
  | Some n => n
  | None => "None"
  end.

(** [main()]. *)
Definition main (w : World) (cli : ParseOutcome) : Py unit :=
  args <- parse_args cli ;;
  if String.eqb (action args) "list" then
    list_workspaces w
  else if String.eqb (action args) "create" then
    (if no_name (name args) then
       print "Error: --name required for create action" ;;
       sys_exit 1
     else ret tt) ;;
    create_workspace w (name_text (name args))
  else ret tt.

(** The exit status of the process whose [main()] ended with [r]: 0 when
    it returned, the code of a [SystemExit], 1 after any other uncaught
    exception (the interpreter prints the traceback on standard error). *)
Definition exit_status (r : exn + unit) : Z :=
  match r with
  | inr _ => 0
  | inl (SystemExit code) => code
  | inl _ => 1
  end.

(** One run of the script, from a fresh console. *)
Definition run (w : World) (cli : ParseOutcome) : Z * Console :=
  let (r, c) := main w cli fresh in (exit_status r, c).

(** ** The data model of the specification *)

(** Written from the specification's words: a workspace record has an
    integer [id], an integer [windows] count and an optional string
    [name]. *)
Record Workspace : Type := {
  ws_id : Z;
  ws_name : option text;
  ws_windows : Z
}.

(** Written from the specification's words: the line
    ["  <id>: <name> (<windows> windows)"], where the name defaults to
    ["Unnamed"]. *)
Definition workspace_line (r : Workspace) : text :=
  (PyText.of_string "  " ++ PyText.of_string (PyStr.of_int (ws_id r))
     ++ PyText.of_string ": "
     ++ match ws_name r with Some n => n | None => PyText.of_string "Unnamed" end
     ++ PyText.of_string " (" ++ PyText.of_string (PyStr.of_int (ws_windows r))
     ++ PyText.of_string " windows)")%list.

(** The record a decoded JSON object stands for, when it is one: an
    object whose [id] and [windows] are integers and whose [name], when
    there is one, is a string.  Further keys are allowed. *)
Definition as_workspace (v : pyval) : option Workspace :=
  match v with
  | PDict d =>
      match PyVal.lookup "id" d, PyVal.lookup "windows" d with
      | Some (PInt i), Some (PInt n) =>
          match PyVal.lookup "name" d with
          | None => Some {| ws_id := i; ws_name := None; ws_windows := n |}
          | Some (PStr s) => Some {| ws_id := i; ws_name := Some s; ws_windows := n |}
          | Some _ => None
          end
      | _, _ => None
      end
  | _ => None
  end.

(** The records of a decoded JSON array, when every element is one. *)
Fixpoint as_workspaces (vs : list pyval) : option (list Workspace) :=
  match vs with
  | [] => Some []
  | v :: vs' =>
      match as_workspace v, as_workspaces vs' with
      | Some r, Some rs => Some (r :: rs)
      | _, _ => None
      end
  end.

(** Standard output can encode the name of the record: it holds no lone
    surrogate. *)
Definition name_encodable (r : Workspace) : bool :=
  match ws_name r with
  | Some n => PyText.encodable n
  | None => true
  end.

(** Standard output can encode what an f-string makes of [v]: [v] is not
    a string that holds a lone surrogate. *)
Definition field_encodable (v : pyval) : bool :=
  match v with
  | PStr s => PyText.encodable s
  | _ => true
  end.

(** The loop body of [list_workspaces] goes through on [v]: an object
    that has the keys [id] and [windows], and whose [id], [name] and
    [windows] can be printed. *)
Definition goes_through (v : pyval) : bool :=
  match v with
  | PDict d =>
      match PyVal.lookup "id" d, PyVal.lookup "windows" d with
      | Some i, Some n =>
          field_encodable i
          && match PyVal.lookup "name" d with
             | Some x => field_encodable x
             | None => true
             end
          && field_encodable n
      | _, _ => false
      end
  | _ => false
  end.


(** The argument vectors of the two external commands. *)
Definition query_argv : list string := ["hyprctl"; "workspaces"; "-j"].

Definition dispatch_argv (name : string) : list string :=
  PyStr.split ("hyprctl dispatch workspace name:" ++ name).



(** The exceptions other than [SystemExit] end the process with status
    1. *)
Definition crash (e : exn) : Prop := exit_status (inl e) = 1.

(** The return code of a command that ran. *)
Definition return_code (o : RunOutcome) : option Z :=
  match o with
  | Exited rc _ => Some rc
  | Garbled rc => Some rc
  | NotStarted => None
  end.

Fixpoint no_space (s : string) : bool :=
  match s with
  | EmptyString => true
  | String c s' => negb (PyStr.isspace c) && no_space s'
  end.

(** A name made of whitespace only. *)
Fixpoint all_space (s : string) : bool :=
  match s with
  | EmptyString => true
  | String c s' => PyStr.isspace c && all_space s'
  end.

(** A word stops here: at the end of the text, or before a whitespace
    character. *)
Definition word_end (s : string) : bool :=
  match s with
  | EmptyString => true
  | String c _ => PyStr.isspace c
  end.

(** ** Sample worlds *)

(** [json.dumps(s)] for a plain word. *)
Definition quoted (s : string) : string :=
  String PyStr.dquote (s ++ String PyStr.dquote EmptyString).

(** The JSON text of the specification's example scenario. *)
Definition snapshot_text : string :=
  "[{" ++ quoted "id" ++ ":0," ++ quoted "name" ++ ":" ++ quoted "main" ++ ","
       ++ quoted "windows" ++ ":3},{" ++ quoted "id" ++ ":1,"
       ++ quoted "windows" ++ ":0}]".

Definition partial_text : string := "[{" ++ quoted "id" ++ ":1}]".

Definition snapshot_value : pyval :=
  PList [PDict [("id", PInt 0); ("name", PStr "main"); ("windows", PInt 3)];
         PDict [("id", PInt 1); ("windows", PInt 0)]].

(** [json.loads] on the few texts the samples use. *)
Definition sample_loads (t : text) : LoadsOutcome :=
  if PyText.eqb t snapshot_text then Decoded snapshot_value
  else if PyText.eqb t "[]" then Decoded (PList [])
  else if PyText.eqb t "[1]" then Decoded (PList [PInt 1])
  else if PyText.eqb t partial_text then Decoded (PList [PDict [("id", PInt 1)]])
  else Invalid "Expecting value: line 1 column 1 (char 0)".

(** [str(CalledProcessError(rc, argv))] for a positive return code. *)
Definition sample_detail (argv : list string) (rc : Z) : string :=
  "Command '[" ++ PyStr.join ", " (map PyStr.repr argv)
    ++ "]' returned non-zero exit status " ++ PyStr.of_int rc ++ ".".

(** A world in which the query ends as [query] and any other command as
    [dispatch].  The samples format no code point from 256 on. *)
Definition sample_world (query dispatch : RunOutcome) : World := {|
  run_outcome := fun argv =>
    if String.eqb (nth 1 argv EmptyString) "workspaces" then query else dispatch;
  failure_detail := sample_detail;
  json_loads_outcome := sample_loads;
  unicode_printable := fun _ => false
|}.

(** Hyprland runs two workspaces, as in the example scenario. *)
Definition w_snapshot : World :=
  sample_world (Exited 0 snapshot_text) (Exited 0 "ok").

(** Hyprland reports no workspace. *)
Definition w_empty : World := sample_world (Exited 0 "[]") (Exited 0 "ok").

(** [hyprctl] exits with status 1 whatever it is asked. *)
Definition w_down : World := sample_world (Exited 1 "") (Exited 1 "").

(** The query answers with a text that is not JSON. *)
Definition w_garbage : World :=
  sample_world (Exited 0 "Couldn't connect") (Exited 0 "ok").



(** [hyprctl] is not installed. *)
Definition w_absent : World := sample_world NotStarted NotStarted.

(** The query writes the two bytes FF FE, which are not UTF-8, and exits
    with status 0. *)
Definition w_binary : World := sample_world (Garbled 0) (Exited 0 "ok").


Definition list_args : Namespace := {| action := "list"; name := None |}.

(** The JSON text [[{"id":0,"name":"main","windows":3},7]]. *)
Definition mixed_text : string :=
  "[{" ++ quoted "id" ++ ":0," ++ quoted "name" ++ ":" ++ quoted "main" ++ ","
       ++ quoted "windows" ++ ":3},7]".

(** The JSON text [[{"id":0,"name":"\ud800","windows":1}]]: the name is
    one lone surrogate, written as an escape. *)
Definition surrogate_text : string :=
  "[{" ++ quoted "id" ++ ":0," ++ quoted "name" ++ ":" ++ quoted "\ud800" ++ ","
       ++ quoted "windows" ++ ":1}]".

Definition surrogate_value : pyval :=
  PList [PDict [("id", PInt 0); ("name", PStr [55296%N]); ("windows", PInt 1)]].

Fixpoint nines (n : nat) : string :=
  match n with
  | O => EmptyString
  | S n' => String "9" (nines n')
  end.

(** A JSON text whose [id] is an integer of 5000 digits. *)
Definition digits_text : string :=
  "[{" ++ quoted "id" ++ ":" ++ nines 5000 ++ "," ++ quoted "windows" ++ ":0}]".

(** [json.loads] on a few more texts.  [NaN] is not JSON, yet
    [json.loads] takes it for the float of that name. *)
Definition more_loads (t : text) : LoadsOutcome :=
  if PyText.eqb t "null" then Decoded PNone
  else if PyText.eqb t "NaN" then Decoded (PFloat "nan")
  else if PyText.eqb t mixed_text then
    Decoded (PList [PDict [("id", PInt 0); ("name", PStr "main"); ("windows", PInt 3)];
                    PInt 7])
  else if PyText.eqb t surrogate_text then Decoded surrogate_value
  else if PyText.eqb t digits_text then TooManyDigits
  else sample_loads t.

(** A world in which every command exits with status 0 and writes
    [output]. *)
Definition answering (output : string) : World := {|
  run_outcome := fun _ => Exited 0 output;
  failure_detail := sample_detail;
  json_loads_outcome := more_loads;
  unicode_printable := fun _ => false
|}.

(** The query answers with [null]. *)
Definition w_null : World := answering "null".

(** The query answers with [NaN]. *)
Definition w_nan : World := answering "NaN".




(** ** Properties *)

Unset Implicit Arguments.


Section TextFacts.

Lemma small_not_surrogate (cp : N) :
  (cp < 256)%N -> PyText.is_surrogate cp = false.
Proof.
  intros H. unfold PyText.is_surrogate.
  destruct (N.leb_spec 55296 cp) as [H' | _]; [lia | reflexivity].
Qed.

(** A [string] holds no surrogate: standard output can encode it. *)
Lemma encodable_of_string (s : string) :
  PyText.encodable (PyText.of_string s) = true.
Proof.
  induction s as [ | x s IH]; [reflexivity | ].
  cbn [PyText.of_string]. unfold PyText.encodable in *. cbn [forallb].
  rewrite IH, (small_not_surrogate _ (N_ascii_bounded x)). reflexivity.
Qed.

Lemma encodable_app (a b : text) :
  PyText.encodable (a ++ b)%list = PyText.encodable a && PyText.encodable b.
Proof. unfold PyText.encodable. apply forallb_app. Qed.

Lemma encodable_cons (cp : N) (t : text) :
  PyText.encodable (cp :: t) = negb (PyText.is_surrogate cp) && PyText.encodable t.
Proof. reflexivity. Qed.

Lemma encodable_hex (width : nat) :
  forall n : N, PyText.encodable (PyText.hex width n) = true.
Proof.
  induction width as [ | k IH]; intros n; [reflexivity | ].
  cbn [PyText.hex]. rewrite encodable_app, IH, encodable_cons.
  rewrite (small_not_surrogate _ (N_ascii_bounded _)). reflexivity.
Qed.

(** A printable code point is no surrogate. *)
Lemma printable_not_surrogate (db : N -> bool) (cp : N) :
  PyText.isprintable db cp = true -> PyText.is_surrogate cp = false.
Proof.
  unfold PyText.isprintable. destruct (N.ltb_spec cp 256) as [H | _].
  - intros _. apply small_not_surrogate, H.
  - intros H. apply andb_prop in H as [H _]. apply negb_true_iff, H.
Qed.

Lemma encodable_repr_char (db : N -> bool) (quote cp : N) :
  PyText.is_surrogate quote = false ->
  PyText.encodable (PyText.repr_char db quote cp) = true.
Proof.
  intros Hq. unfold PyText.repr_char.
  destruct (N.eqb_spec cp quote) as [-> | _].
  - cbn [orb]. rewrite !encodable_cons, Hq. reflexivity.
  - cbn [orb]. destruct (N.eqb_spec cp PyText.backslash) as [-> | _]; [reflexivity | ].
    destruct (N.eqb cp 9); [reflexivity | ].
    destruct (N.eqb cp 10); [reflexivity | ].
    destruct (N.eqb cp 13); [reflexivity | ].
    destruct (PyText.isprintable db cp) eqn:Hp.
    + rewrite encodable_cons, (printable_not_surrogate _ _ Hp). reflexivity.
    + destruct (cp <? 256)%N; [ | destruct (cp <? 65536)%N];
        rewrite encodable_cons, encodable_app, encodable_hex; reflexivity.
Qed.

Lemma encodable_repr_body (db : N -> bool) (quote : N) (t : text) :
  PyText.is_surrogate quote = false ->
  PyText.encodable (flat_map (PyText.repr_char db quote) t) = true.
Proof.
  intros Hq. induction t as [ | cp t IH]; [reflexivity | ].
  cbn [flat_map]. rewrite encodable_app, (encodable_repr_char db quote cp Hq).
  exact IH.
Qed.

(** [repr] of a text escapes the surrogates: its result can always be
    written. *)
Lemma encodable_repr_text (db : N -> bool) (t : text) :
  PyText.encodable (PyText.repr db t) = true.
Proof.
  unfold PyText.repr.
  set (quote := if existsb (N.eqb PyText.squote) t
                   && negb (existsb (N.eqb PyText.dquote) t)
                then PyText.dquote else PyText.squote).
  assert (Hq : PyText.is_surrogate quote = false).
  { unfold quote. destruct (_ && _); reflexivity. }
  rewrite encodable_cons, Hq, encodable_app, (encodable_repr_body db quote t Hq).
  rewrite encodable_cons, Hq. reflexivity.
Qed.

Lemma encodable_join (sep : text) (parts : list text) :
  PyText.encodable sep = true ->
  Forall (fun p => PyText.encodable p = true) parts ->
  PyText.encodable (PyText.join sep parts) = true.
Proof.
  intros Hsep H. induction H as [ | p ps Hp Hps IH]; [reflexivity | ].
  cbn [PyText.join]. destruct ps as [ | q ps]; [exact Hp | ].
  rewrite !encodable_app, Hp, Hsep, IH. reflexivity.
Qed.

End TextFacts.

Section ReprFacts.

Variable db : N -> bool.

(** [repr] of a value escapes every surrogate in it. *)
Lemma encodable_repr (v : pyval) : PyText.encodable (PyVal.repr db v) = true.
Proof.
  induction v as [ | b | n | t | s | l IH | d IH] using pyval_nested_ind.
  - reflexivity.
  - destruct b; reflexivity.
  - apply encodable_of_string.
  - apply encodable_of_string.
  - apply encodable_repr_text.
  - cbn [PyVal.repr]. rewrite !encodable_app, !encodable_of_string.
    rewrite encodable_join; [reflexivity | apply encodable_of_string | ].
    induction IH as [ | x l Hx Hl IHl]; constructor; assumption.
  - cbn [PyVal.repr]. rewrite !encodable_app, !encodable_of_string.
    rewrite encodable_join; [reflexivity | apply encodable_of_string | ].
    induction IH as [ | [k x] d Hx Hd IHd]; constructor; [ | assumption].
    rewrite !encodable_app, encodable_repr_text, encodable_of_string. exact Hx.
Qed.

(** What an f-string makes of a value can be printed unless the value is
    itself a string with a lone surrogate. *)
Lemma encodable_str (v : pyval) :
  PyText.encodable (PyVal.str db v) = field_encodable v.
Proof. destruct v; try apply encodable_repr. reflexivity. Qed.

End ReprFacts.

Section PrintFacts.

Lemma print_encodable (t : text) (c : Console) :
  PyText.encodable t = true ->
  print t c = (inr tt, {| printed := printed c ++ [t]; spawned := spawned c |}).
Proof. intros H. unfold print. rewrite H. reflexivity. Qed.

Lemma print_refused (t : text) (c : Console) :
  PyText.encodable t = false -> print t c = (inl UnicodeEncodeError, c).
Proof. intros H. unfold print. rewrite H. reflexivity. Qed.

(** A [string] is always printed. *)
Lemma print_string (s : string) (c : Console) :
  print s c = (inr tt, {| printed := printed c ++ [s : text]; spawned := spawned c |}).
Proof. apply print_encodable, encodable_of_string. Qed.

Lemma encodable_format_line (w : World) (i nm n : pyval) :
  PyText.encodable (format_line w i nm n)
  = field_encodable i && field_encodable nm && field_encodable n.
Proof.
  unfold format_line.
  rewrite !encodable_app, !encodable_str, !encodable_of_string.
  cbn [andb]. rewrite andb_true_r, andb_assoc. reflexivity.
Qed.

Lemma encodable_workspace_line (r : Workspace) :
  PyText.encodable (workspace_line r) = name_encodable r.
Proof.
  unfold workspace_line, name_encodable.
  rewrite !encodable_app, !encodable_of_string. cbn [andb].
  rewrite andb_true_r.
  destruct (ws_name r); [reflexivity | apply encodable_of_string].
Qed.

End PrintFacts.

Section Query.

Variable w : World.

Lemma split_query : PyStr.split "hyprctl workspaces -j" = query_argv.
Proof. reflexivity. Qed.

(** [get_workspaces], by the fate of the query. *)
Lemma get_workspaces_cases (c : Console) :
  get_workspaces w c
  = match run_outcome w query_argv with
    | Exited rc output =>
        if rc =? 0 then
          match json_loads_outcome w output with
          | Decoded v =>
              (inr v,
               {| printed := printed c; spawned := spawned c ++ [query_argv] |})
          | Invalid detail =>
              (inr (PList []),
               {| printed := printed c ++ ["Error parsing workspaces: " ++ detail];
                  spawned := spawned c ++ [query_argv] |})
          | TooManyDigits =>
              (inl ValueError,
               {| printed := printed c; spawned := spawned c ++ [query_argv] |})
          | TooDeep =>
              (inl RecursionError,
               {| printed := printed c; spawned := spawned c ++ [query_argv] |})
          end
        else
          (inr (PList []),
           {| printed := printed c
                         ++ ["Error getting workspaces: "
                             ++ failure_detail w query_argv rc];
              spawned := spawned c ++ [query_argv] |})
    | Garbled rc =>
        (inl UnicodeDecodeError,
         {| printed := printed c; spawned := spawned c ++ [query_argv] |})
    | NotStarted =>
        (inl OSError,
         {| printed := printed c; spawned := spawned c ++ [query_argv] |})
    end.
Proof.
  unfold get_workspaces, subprocess_run, json_loads, spawn. cbv zeta.
  rewrite split_query. cbn [bind ret raise catch Monad_Py Exc_Py].
  destruct (run_outcome w query_argv) as [rc output | rc | ];
    cbn [bind ret raise catch Monad_Py Exc_Py]; try reflexivity.
  destruct (rc =? 0); cbn [bind ret raise catch Monad_Py Exc_Py].
  - destruct (json_loads_outcome w output) as [v | detail | | ];
      cbn [bind ret raise catch Monad_Py Exc_Py]; try reflexivity.
    rewrite print_string. reflexivity.
  - rewrite print_string. reflexivity.
Qed.

(** The query exits with status 0 and its output decodes. *)
Lemma get_workspaces_decoded (c : Console) (output : text) (v : pyval) :
  run_outcome w query_argv = Exited 0 output ->
  json_loads_outcome w output = Decoded v ->
  get_workspaces w c
  = (inr v, {| printed := printed c; spawned := spawned c ++ [query_argv] |}).
Proof.
  intros Hrun Hloads. rewrite get_workspaces_cases, Hrun. cbn [Z.eqb].
  rewrite Hloads. reflexivity.
Qed.

(** The query exits with status 0 and [json.loads] raises
    [JSONDecodeError] on its output. *)
Lemma get_workspaces_invalid (c : Console) (output : text) (detail : string) :
  run_outcome w query_argv = Exited 0 output ->
  json_loads_outcome w output = Invalid detail ->
  get_workspaces w c
  = (inr (PList []),
     {| printed := printed c ++ ["Error parsing workspaces: " ++ detail];
        spawned := spawned c ++ [query_argv] |}).
Proof.
  intros Hrun Hloads. rewrite get_workspaces_cases, Hrun. cbn [Z.eqb].
  rewrite Hloads. reflexivity.
Qed.

(** The query exits with another status. *)
Lemma get_workspaces_failed (c : Console) (rc : Z) (output : text) :
  run_outcome w query_argv = Exited rc output ->
  rc <> 0 ->
  get_workspaces w c
  = (inr (PList []),
     {| printed := printed c
                   ++ ["Error getting workspaces: " ++ failure_detail w query_argv rc];
        spawned := spawned c ++ [query_argv] |}).
Proof.
  intros Hrun Hrc. rewrite get_workspaces_cases, Hrun.
  destruct (Z.eqb_spec rc 0) as [E | _]; [contradiction | reflexivity].
Qed.

(** The query cannot be started: nothing catches the [OSError]. *)
Lemma get_workspaces_not_started (c : Console) :
  run_outcome w query_argv = NotStarted ->
  get_workspaces w c
  = (inl OSError, {| printed := printed c; spawned := spawned c ++ [query_argv] |}).
Proof. intros Hrun. rewrite get_workspaces_cases, Hrun. reflexivity. Qed.


Lemma get_workspaces_spawned (c : Console) :
  spawned (snd (get_workspaces w c)) = (spawned c ++ [query_argv])%list.
Proof.
  rewrite get_workspaces_cases.
  destruct (run_outcome w query_argv) as [rc output | rc | ]; try reflexivity.
  destruct (rc =? 0); [ | reflexivity].
  destruct (json_loads_outcome w output); reflexivity.
Qed.

End Query.

Section Listing.

Variable w : World.

Lemma for_each_cons (A : Type) (x : A) (xs : list A) (body : A -> Py unit)
    (c : Console) :
  for_each (x :: xs) body c
  = match body x c with
    | (inr _, c') => for_each xs body c'
    | (inl e, c') => (inl e, c')
    end.
Proof. reflexivity. Qed.


(** One turn of the loop, by what the element holds. *)
Lemma print_workspace_cases (v : pyval) (c : Console) :
  print_workspace w v c
  = match v with
    | PDict d =>
        match PyVal.lookup "id" d with
        | Some i =>
            match PyVal.lookup "windows" d with
            | Some n =>
                print (format_line w i
                         match PyVal.lookup "name" d with
                         | Some x => x
                         | None => PStr "Unnamed"
                         end n) c
            | None => (inl (KeyError "windows"), c)
            end
        | None => (inl (KeyError "id"), c)
        end
    | _ => (inl TypeError, c)
    end.
Proof.
  unfold print_workspace, PyVal.getitem, PyVal.get.
  destruct v as [ | | | | | | d]; try reflexivity.
  destruct (PyVal.lookup "id" d); [ | reflexivity].
  destruct (PyVal.lookup "name" d); destruct (PyVal.lookup "windows" d);
    reflexivity.
Qed.

(** One turn of the loop on an element that stands for a record whose
    name can be printed. *)
Lemma print_workspace_record (v : pyval) (r : Workspace) (c : Console) :
  as_workspace v = Some r ->
  name_encodable r = true ->
  print_workspace w v c
  = (inr tt, {| printed := printed c ++ [workspace_line r]; spawned := spawned c |}).
Proof.
  intros Hv Hr. rewrite <- encodable_workspace_line in Hr.
  rewrite print_workspace_cases. revert Hv.
  destruct v as [ | | | | | | d]; try discriminate. unfold as_workspace.
  destruct (PyVal.lookup "id" d) as [[ | | i | | | | ] | ]; try discriminate.
  destruct (PyVal.lookup "windows" d) as [[ | | n | | | | ] | ]; try discriminate.
  destruct (PyVal.lookup "name" d) as [[ | | | | s | | ] | ]; try discriminate;
    intros [= <-]; exact (print_encodable _ c Hr).
Qed.

(** The whole loop on an array of records: one line each, in order. *)
Lemma for_each_records (vs : list pyval) :
  forall (rs : list Workspace) (c : Console),
    as_workspaces vs = Some rs ->
    forallb name_encodable rs = true ->
    for_each vs (print_workspace w) c
    = (inr tt, {| printed := printed c ++ map workspace_line rs;
                  spawned := spawned c |}).
Proof.
  induction vs as [ | v vs IH]; intros rs c H Hrs.
  - injection H as <-. cbn. rewrite app_nil_r. destruct c; reflexivity.
  - cbn in H. destruct (as_workspace v) as [r | ] eqn:Hv; [ | discriminate].
    destruct (as_workspaces vs) as [rs' | ] eqn:Hvs; [ | discriminate].
    injection H as <-. cbn [forallb] in Hrs. apply andb_prop in Hrs as [Hr Hrs'].
    rewrite for_each_cons, (print_workspace_record v r c Hv Hr),
      (IH rs' _ eq_refl Hrs').
    cbn [printed spawned map]. rewrite <- app_assoc. reflexivity.
Qed.

(** One turn of the loop goes through, and prints one line, exactly on
    the elements [goes_through] describes. *)
Lemma print_workspace_passes (v : pyval) (c : Console) :
  goes_through v = true ->
  exists line : text,
    print_workspace w v c
    = (inr tt, {| printed := printed c ++ [line]; spawned := spawned c |}).
Proof.
  rewrite print_workspace_cases. unfold goes_through.
  destruct v as [ | | | | | | d]; try discriminate.
  destruct (PyVal.lookup "id" d) as [i | ]; [ | discriminate].
  destruct (PyVal.lookup "windows" d) as [n | ]; [ | discriminate].
  intros H. eexists. apply print_encodable.
  rewrite encodable_format_line.
  destruct (PyVal.lookup "name" d); exact H.
Qed.

Lemma print_workspace_fails (v : pyval) (c : Console) :
  goes_through v = false ->
  exists e : exn, print_workspace w v c = (inl e, c) /\ crash e.
Proof.
  rewrite print_workspace_cases. unfold goes_through, crash.
  destruct v as [ | | | | | | d]; intros H;
    try (exists TypeError; split; reflexivity).
  destruct (PyVal.lookup "id" d) as [i | ];
    [ | exists (KeyError "id"); split; reflexivity].
  destruct (PyVal.lookup "windows" d) as [n | ];
    [ | exists (KeyError "windows"); split; reflexivity].
  exists UnicodeEncodeError. split; [ | reflexivity].
  apply print_refused. rewrite encodable_format_line.
  destruct (PyVal.lookup "name" d); exact H.
Qed.


(** One turn of the loop hands nothing to [subprocess.run] and, when it
    fails, fails by an exception that is not [SystemExit]. *)
Lemma print_workspace_quiet (v : pyval) (c : Console) :
  spawned (snd (print_workspace w v c)) = spawned c
  /\ (exit_status (fst (print_workspace w v c)) = 0
      \/ exit_status (fst (print_workspace w v c)) = 1).
Proof.
  destruct (goes_through v) eqn:Hv.
  - destruct (print_workspace_passes v c Hv) as [line ->].
    split; [ | left]; reflexivity.
  - destruct (print_workspace_fails v c Hv) as [e [-> He]].
    split; [reflexivity | right; exact He].
Qed.


Lemma for_each_quiet (vs : list pyval) :
  forall c : Console,
    spawned (snd (for_each vs (print_workspace w) c)) = spawned c
    /\ (exit_status (fst (for_each vs (print_workspace w) c)) = 0
        \/ exit_status (fst (for_each vs (print_workspace w) c)) = 1).
Proof.
  induction vs as [ | v vs IH]; intros c.
  - split; [ | left]; reflexivity.
  - rewrite for_each_cons.
    destruct (print_workspace_quiet v c) as [Hs Hx].
    destruct (print_workspace w v c) as [[e | []] c']; cbn [fst snd] in *.
    + split; [exact Hs | exact Hx].
    + destruct (IH c') as [Hs' Hx']. rewrite Hs', Hs.
      split; [reflexivity | exact Hx'].
Qed.


(** [list_workspaces], one step at a time. *)
Lemma list_workspaces_step (c : Console) :
  list_workspaces w c
  = match get_workspaces w c with
    | (inr workspaces, c') =>
        if negb (PyVal.truthy workspaces) then
          (inr tt, {| printed := printed c' ++ ["No workspaces found"];
                      spawned := spawned c' |})
        else
          match PyVal.iter workspaces with
          | inr elems =>
              for_each elems (print_workspace w)
                {| printed := printed c' ++ ["Active Workspaces:"];
                   spawned := spawned c' |}
          | inl e =>
              (inl e, {| printed := printed c' ++ ["Active Workspaces:"];
                         spawned := spawned c' |})
          end
    | (inl e, c') => (inl e, c')
    end.
Proof.
  unfold list_workspaces. cbn [bind Monad_Py].
  destruct (get_workspaces w c) as [[e | v] c']; [reflexivity | ].
  destruct (negb (PyVal.truthy v)); [apply print_string | ].
  rewrite print_string.
  destruct (PyVal.iter v); reflexivity.
Qed.


(** The query exits with another status: the diagnostic, then the line
    for an empty result. *)
Lemma list_workspaces_failed (c : Console) (rc : Z) (output : text) :
  run_outcome w query_argv = Exited rc output ->
  rc <> 0 ->
  list_workspaces w c
  = (inr tt,
     {| printed := printed c
                   ++ ["Error getting workspaces: " ++ failure_detail w query_argv rc;
                       "No workspaces found"];
        spawned := spawned c ++ [query_argv] |}).
Proof.
  intros Hrun Hrc.
  rewrite list_workspaces_step, (get_workspaces_failed w c rc output Hrun Hrc).
  cbn [negb PyVal.truthy printed spawned].
  rewrite <- app_assoc. reflexivity.
Qed.

(** [json.loads] raises [JSONDecodeError] on the output of the query: the
    diagnostic, then the line for an empty result. *)
Lemma list_workspaces_invalid (c : Console) (output : text) (detail : string) :
  run_outcome w query_argv = Exited 0 output ->
  json_loads_outcome w output = Invalid detail ->
  list_workspaces w c
  = (inr tt,
     {| printed := printed c
                   ++ ["Error parsing workspaces: " ++ detail; "No workspaces found"];
        spawned := spawned c ++ [query_argv] |}).
Proof.
  intros Hrun Hloads.
  rewrite list_workspaces_step,
    (get_workspaces_invalid w c output detail Hrun Hloads).
  cbn [negb PyVal.truthy printed spawned].
  rewrite <- app_assoc. reflexivity.
Qed.

(** [list_workspaces] hands the query to [subprocess.run] and nothing
    else, and an exception that leaves it is not [SystemExit]. *)
Lemma list_workspaces_quiet (c : Console) :
  spawned (snd (list_workspaces w c)) = (spawned c ++ [query_argv])%list
  /\ (exit_status (fst (list_workspaces w c)) = 0
      \/ exit_status (fst (list_workspaces w c)) = 1).
Proof.
  rewrite list_workspaces_step.
  pose proof (get_workspaces_spawned w c) as Hs.
  pose proof (get_workspaces_cases w c) as Hc.
  destruct (get_workspaces w c) as [[e | v] c']; cbn [fst snd] in *.
  - split; [exact Hs | ]. right. revert Hc.
    destruct (run_outcome w query_argv) as [rc output | rc | ].
    + destruct (rc =? 0); [ | discriminate].
      destruct (json_loads_outcome w output); try discriminate;
        intros [= -> _]; reflexivity.
    + intros [= -> _]. reflexivity.
    + intros [= -> _]. reflexivity.
  - destruct (negb (PyVal.truthy v)).
    + split; [exact Hs | left; reflexivity].
    + destruct (PyVal.iter v) as [e | elems] eqn:Hi.
      * split; [exact Hs | right].
        destruct v; try discriminate; injection Hi as <-; reflexivity.
      * destruct (for_each_quiet elems
                    {| printed := printed c' ++ ["Active Workspaces:"];
                       spawned := spawned c' |}) as [Hs' Hx'].
        rewrite Hs'. split; [exact Hs | exact Hx'].
Qed.

End Listing.

Section Creating.

Variable w : World.

(** [create_workspace], by the fate of the dispatch command; what the
    command writes is not read. *)
Lemma create_workspace_step (n : string) (c : Console) :
  create_workspace w n c
  = match return_code (run_outcome w (dispatch_argv n)) with
    | Some rc =>
        (inr tt,
         {| printed :=
              printed c
              ++ [if rc =? 0 then "Created workspace: " ++ n
                  else "Error creating workspace: "
                       ++ failure_detail w (dispatch_argv n) rc];
            spawned := spawned c ++ [dispatch_argv n] |})
    | None =>
        (inl OSError,
         {| printed := printed c; spawned := spawned c ++ [dispatch_argv n] |})
    end.
Proof.
  unfold create_workspace, dispatch_argv. cbv zeta.
  generalize (PyStr.split ("hyprctl dispatch workspace name:" ++ n)) as argv.
  intros argv. unfold subprocess_run, spawn.
  cbn [bind ret raise catch Monad_Py Exc_Py].
  destruct (run_outcome w argv) as [rc output | rc | ];
    cbn [bind ret raise catch Monad_Py Exc_Py return_code]; try reflexivity;
    destruct (rc =? 0); cbn [bind ret raise catch Monad_Py Exc_Py];
    rewrite print_string; reflexivity.
Qed.

(** Whatever the name, [create_workspace] hands one command to
    [subprocess.run]. *)
Lemma create_workspace_spawns_once (n : string) (c : Console) :
  spawned (snd (create_workspace w n c)) = (spawned c ++ [dispatch_argv n])%list.
Proof.
  rewrite create_workspace_step.
  destruct (return_code (run_outcome w (dispatch_argv n))); reflexivity.
Qed.

End Creating.

Section Words.

Lemma append_assoc (a b c : string) : ((a ++ b) ++ c = a ++ (b ++ c))%string.
Proof. induction a as [ | x a IH]; cbn; [ | rewrite IH]; reflexivity. Qed.

Lemma append_empty_r (s : string) : (s ++ "")%string = s.
Proof. induction s as [ | c s IH]; cbn; [ | rewrite IH]; reflexivity. Qed.

Lemma split_from_word (c : ascii) (cur s : string) :
  PyStr.isspace c = false ->
  PyStr.split_from cur (String c s)
  = PyStr.split_from (cur ++ String c EmptyString) s.
Proof. intros H. cbn [PyStr.split_from]. rewrite H. reflexivity. Qed.

Lemma split_from_space (c : ascii) (cur s : string) :
  PyStr.isspace c = true ->
  PyStr.split_from cur (String c s)
  = PyStr.flush cur (PyStr.split_from EmptyString s).
Proof. intros H. cbn [PyStr.split_from]. rewrite H. reflexivity. Qed.

Lemma split_eq (s : string) : PyStr.split s = PyStr.split_from EmptyString s.
Proof. reflexivity. Qed.

(** Reading on through characters that are not whitespace only grows the
    word under construction. *)
Lemma split_from_plain (s : string) :
  forall cur : string,
    no_space s = true ->
    PyStr.split_from cur s = PyStr.flush (cur ++ s) [].
Proof.
  induction s as [ | x s IH]; intros cur H.
  - cbn [PyStr.split_from]. rewrite append_empty_r. reflexivity.
  - cbn in H. apply andb_prop in H as [Hx Hs].
    apply negb_true_iff in Hx.
    rewrite (split_from_word x cur s Hx), (IH _ Hs), append_assoc. reflexivity.
Qed.

(** Whatever the name, the first three words of the dispatch command are
    fixed and the rest is what [split] makes of [name:<name>]. *)
Lemma dispatch_argv_words (n : string) :
  dispatch_argv n
  = "hyprctl" :: "dispatch" :: "workspace" :: PyStr.split_from "name:" n.
Proof.
  rewrite (split_eq ("hyprctl dispatch workspace name:" ++ n)
           : dispatch_argv n = _).
  cbn [append].
  repeat (rewrite split_from_word by reflexivity; cbn [append]).
  rewrite split_from_space by reflexivity.
  repeat (rewrite split_from_word by reflexivity; cbn [append]).
  rewrite split_from_space by reflexivity.
  repeat (rewrite split_from_word by reflexivity; cbn [append]).
  rewrite split_from_space by reflexivity.
  repeat (rewrite split_from_word by reflexivity; cbn [append]).
  reflexivity.
Qed.

(** A name without whitespace travels as the one argument
    [name:<name>]. *)
Lemma dispatch_argv_plain (n : string) :
  no_space n = true ->
  dispatch_argv n = ["hyprctl"; "dispatch"; "workspace"; "name:" ++ n].
Proof.
  intros H. rewrite dispatch_argv_words, (split_from_plain n "name:" H).
  reflexivity.
Qed.

(** The first word cut from [cur] followed by [s]: [cur] and the
    characters of [s] up to its first whitespace. *)
Lemma split_from_first_word (s : string) :
  forall cur : string,
    PyStr.is_empty cur = false ->
    exists (p q : string) (rest : list string),
      s = (p ++ q)%string /\ no_space p = true /\ word_end q = true
      /\ PyStr.split_from cur s = (cur ++ p)%string :: rest.
Proof.
  induction s as [ | c s IH]; intros cur Hcur.
  - exists EmptyString, EmptyString, []. repeat split.
    cbn. unfold PyStr.flush. rewrite Hcur, append_empty_r. reflexivity.
  - destruct (PyStr.isspace c) eqn:Hc.
    + exists EmptyString, (String c s), (PyStr.split_from EmptyString s).
      repeat split; [exact Hc | ].
      rewrite (split_from_space c cur s Hc). unfold PyStr.flush.
      rewrite Hcur, append_empty_r. reflexivity.
    + destruct (IH (cur ++ String c EmptyString)%string)
        as (p & q & rest & Hs & Hp & Hq & Hsplit).
      { destruct cur; [discriminate | reflexivity]. }
      exists (String c p), q, rest. repeat split.
      * cbn. rewrite Hs. reflexivity.
      * cbn. rewrite Hc, Hp. reflexivity.
      * exact Hq.
      * rewrite (split_from_word c cur s Hc), Hsplit, append_assoc. reflexivity.
Qed.

(** Whitespace alone adds no word. *)
Lemma split_from_blank (s : string) :
  forall cur : string,
    all_space s = true -> PyStr.split_from cur s = PyStr.flush cur [].
Proof.
  induction s as [ | c s IH]; intros cur H; [reflexivity | ].
  cbn in H. apply andb_prop in H as [Hc Hs].
  rewrite (split_from_space c cur s Hc), (IH EmptyString Hs). reflexivity.
Qed.

(** A whitespace character at the end of the text is dropped. *)
Lemma split_from_trailing (c : ascii) (s : string) :
  PyStr.isspace c = true ->
  forall cur : string,
    PyStr.split_from cur (s ++ String c EmptyString) = PyStr.split_from cur s.
Proof.
  intros Hc. induction s as [ | d s IH]; intros cur.
  - cbn [append]. rewrite (split_from_space c cur EmptyString Hc). reflexivity.
  - cbn [append]. destruct (PyStr.isspace d) eqn:Hd.
    + rewrite !(split_from_space d cur _ Hd), IH. reflexivity.
    + rewrite !(split_from_word d cur _ Hd), IH. reflexivity.
Qed.

End Words.

Section Process.

Variable w : World.

Lemma run_eq (cli : ParseOutcome) :
  run w cli = (exit_status (fst (main w cli fresh)), snd (main w cli fresh)).
Proof. unfold run. destruct (main w cli fresh); reflexivity. Qed.

(** [main] on a parsed command line, branch by branch. *)
Lemma main_cases (args : Namespace) (c : Console) :
  main w (Parsed args) c
  = if String.eqb (action args) "list" then list_workspaces w c
    else if String.eqb (action args) "create" then
      if no_name (name args) then
        (inl (SystemExit 1),
         {| printed := printed c ++ ["Error: --name required for create action"];
            spawned := spawned c |})
      else create_workspace w (name_text (name args)) c
    else (inr tt, c).
Proof.
  unfold main. cbn [parse_args bind ret Monad_Py].
  destruct (String.eqb (action args) "list"); [reflexivity | ].
  destruct (String.eqb (action args) "create"); [ | reflexivity].
  destruct (no_name (name args)); [ | reflexivity].
  cbn [bind ret Monad_Py]. rewrite print_string. reflexivity.
Qed.

Lemma main_list (nm : option string) (c : Console) :
  main w (Parsed {| action := "list"; name := nm |}) c = list_workspaces w c.
Proof. reflexivity. Qed.

Lemma main_create (n : string) (c : Console) :
  PyStr.is_empty n = false ->
  main w (Parsed {| action := "create"; name := Some n |}) c
  = create_workspace w n c.
Proof.
  intros H. rewrite main_cases. cbn [action name no_name name_text].
  rewrite H. reflexivity.
Qed.


Lemma is_empty_false (n : string) : n <> EmptyString -> PyStr.is_empty n = false.
Proof. destruct n; [contradiction | reflexivity]. Qed.

End Process.

(** ** The claims *)

(** C1, as amended.  When the query exits with status 0, what it wrote is
    text, and [json.loads] decodes that text to a non-empty array of
    workspace records (objects with an integer [id], an integer [windows]
    and, optionally, a string [name]) whose names standard output can
    encode (they hold no lone surrogate), [list_workspaces] prints the
    header ["Active Workspaces:"] and then one line per record, in the
    order of the array, each of the form
    ["  <id>: <name> (<windows> windows)"] with ["Unnamed"] for a missing
    name; it prints nothing else and returns. *)
Theorem list_workspaces_prints_records
    (w : World) (output : text) (vs : list pyval) (rs : list Workspace) :
  run_outcome w query_argv = Exited 0 output ->
  json_loads_outcome w output = Decoded (PList vs) ->
  as_workspaces vs = Some rs ->
  forallb name_encodable rs = true ->
  vs <> [] ->
  list_workspaces w fresh
  = (inr tt,
     {| printed := "Active Workspaces:" :: map workspace_line rs;
        spawned := [query_argv] |}).
Proof.
  intros Hrun Hloads Hrs Henc Hne.
  rewrite list_workspaces_step,
    (get_workspaces_decoded w fresh output (PList vs) Hrun Hloads).
  destruct vs as [ | v vs]; [contradiction | ].
  cbn [negb PyVal.truthy PyVal.iter].
  rewrite (for_each_records w (v :: vs) rs _ Hrs Henc). reflexivity.
Qed.

(** The example scenario of the specification. *)
Lemma list_workspaces_prints_records_witness :
  list_workspaces w_snapshot fresh
  = (inr tt,
     {| printed := ["Active Workspaces:"; "  0: main (3 windows)";
                    "  1: Unnamed (0 windows)"];
        spawned := [["hyprctl"; "workspaces"; "-j"]] |}).
Proof.
  apply (list_workspaces_prints_records w_snapshot snapshot_text
           [PDict [("id", PInt 0); ("name", PStr "main"); ("windows", PInt 3)];
            PDict [("id", PInt 1); ("windows", PInt 0)]]
           [ {| ws_id := 0; ws_name := Some ("main" : text); ws_windows := 3 |};
             {| ws_id := 1; ws_name := None; ws_windows := 0 |} ]).
  - reflexivity.
  - reflexivity.
  - reflexivity.
  - reflexivity.
  - discriminate.
Defined.

(** C1, as stated, fails on the empty array: it is a valid array of
    workspace records, yet no header is printed for it. *)
Lemma list_workspaces_empty_array_without_header :
  run_outcome w_empty query_argv = Exited 0 "[]"
  /\ json_loads_outcome w_empty "[]" = Decoded (PList [])
  /\ as_workspaces [] = Some []
  /\ printed (snd (list_workspaces w_empty fresh))
     <> "Active Workspaces:" :: map workspace_line [].
Proof.
  repeat split; try reflexivity.
  vm_compute. discriminate.
Qed.

(** C2, as amended.  When the query exits with a non-zero status and what
    it wrote is text, [list_workspaces] prints the diagnostic that
    carries the failure detail, then the line ["No workspaces found"],
    and nothing more; the process exits with status 0. *)
Theorem list_workspaces_query_failed
    (w : World) (rc : Z) (output : text) (nm : option string) :
  run_outcome w query_argv = Exited rc output ->
  rc <> 0 ->
  run w (Parsed {| action := "list"; name := nm |})
  = (0,
     {| printed := ["Error getting workspaces: " ++ failure_detail w query_argv rc;
                    "No workspaces found"];
        spawned := [query_argv] |}).
Proof.
  intros Hrun Hrc.
  rewrite run_eq, main_list, (list_workspaces_failed w fresh rc output Hrun Hrc).
  reflexivity.
Qed.

Lemma list_workspaces_query_failed_witness :
  run w_down (Parsed list_args)
  = (0,
     {| printed :=
          ["Error getting workspaces: Command '['hyprctl', 'workspaces', '-j']' returned non-zero exit status 1.";
           "No workspaces found"];
        spawned := [query_argv] |}).
Proof.
  apply (list_workspaces_query_failed w_down 1 "" None).
  - reflexivity.
  - lia.
Defined.

(** C2, as stated, fails: after the diagnostic a second line is
    printed. *)
Lemma list_workspaces_query_failed_prints_more :
  run_outcome w_down query_argv = Exited 1 ""
  /\ printed (snd (list_workspaces w_down fresh))
     <> ["Error getting workspaces: " ++ failure_detail w_down query_argv 1]
  /\ nth_error (printed (snd (list_workspaces w_down fresh))) 1
     = Some ("No workspaces found" : text).
Proof.
  repeat split; try reflexivity.
  vm_compute. discriminate.
Qed.







(** C5.  [create] without [--name], or with the empty string for it,
    prints an error and exits with status 1 without starting any command;
    with a non-empty name, [main] does what [create_workspace] does on
    that name. *)
Theorem main_create_requires_name (w : World) :
  run w (Parsed {| action := "create"; name := None |})
  = (1, {| printed := ["Error: --name required for create action"];
           spawned := [] |})
  /\ run w (Parsed {| action := "create"; name := Some "" |})
     = (1, {| printed := ["Error: --name required for create action"];
              spawned := [] |})
  /\ (forall n : string,
        n <> "" ->
        forall c : Console,
          main w (Parsed {| action := "create"; name := Some n |}) c
          = create_workspace w n c).
Proof.
  split; [ | split].
  - rewrite run_eq, main_cases. reflexivity.
  - rewrite run_eq, main_cases. reflexivity.
  - intros n Hn c. apply main_create, is_empty_false, Hn.
Qed.

Lemma main_create_requires_name_witness :
  main w_snapshot (Parsed {| action := "create"; name := Some "coding" |}) fresh
  = create_workspace w_snapshot "coding" fresh.
Proof.
  apply (proj2 (proj2 (main_create_requires_name w_snapshot)) "coding").
  discriminate.
Defined.

(** C6 fails on a name with whitespace: the command line is built as one
    string and then cut at whitespace, so the name ["my work"] reaches
    [hyprctl] as the two arguments [name:my] and [work]. *)
Theorem create_workspace_splits_name (w : World) :
  spawned (snd (create_workspace w "my work" fresh))
  = [["hyprctl"; "dispatch"; "workspace"; "name:my"; "work"]].
Proof. rewrite create_workspace_spawns_once. reflexivity. Qed.

(** C7.  When the query yields the empty array, [list_workspaces] prints
    the line ["No workspaces found"] and nothing else. *)
Theorem list_workspaces_empty (w : World) (output : text) :
  run_outcome w query_argv = Exited 0 output ->
  json_loads_outcome w output = Decoded (PList []) ->
  list_workspaces w fresh
  = (inr tt, {| printed := ["No workspaces found"]; spawned := [query_argv] |}).
Proof.
  intros Hrun Hloads.
  rewrite list_workspaces_step,
    (get_workspaces_decoded w fresh output (PList []) Hrun Hloads).
  reflexivity.
Qed.

Lemma list_workspaces_empty_witness :
  list_workspaces w_empty fresh
  = (inr tt, {| printed := ["No workspaces found"]; spawned := [query_argv] |}).
Proof.
  apply (list_workspaces_empty w_empty "[]"); reflexivity.
Defined.

(** C8, as amended.  When the query exits with status 0, what it wrote is
    text and [json.loads] raises [JSONDecodeError] on that text,
    [list_workspaces] prints the parse-error diagnostic, then the line
    ["No workspaces found"], and returns; no exception leaves it and the
    process exits with status 0. *)
Theorem list_workspaces_invalid_json
    (w : World) (output : text) (detail : string) (nm : option string) :
  run_outcome w query_argv = Exited 0 output ->
  json_loads_outcome w output = Invalid detail ->
  run w (Parsed {| action := "list"; name := nm |})
  = (0,
     {| printed := ["Error parsing workspaces: " ++ detail; "No workspaces found"];
        spawned := [query_argv] |}).
Proof.
  intros Hrun Hloads.
  rewrite run_eq, main_list,
    (list_workspaces_invalid w fresh output detail Hrun Hloads).
  reflexivity.
Qed.

Lemma list_workspaces_invalid_json_witness :
  run w_garbage (Parsed list_args)
  = (0,
     {| printed := ["Error parsing workspaces: Expecting value: line 1 column 1 (char 0)";
                    "No workspaces found"];
        spawned := [query_argv] |}).
Proof.
  apply (list_workspaces_invalid_json w_garbage "Couldn't connect"
           "Expecting value: line 1 column 1 (char 0)" None); reflexivity.
Defined.

(** C8, as stated, fails on output that is not valid JSON and on which
    [json.loads] raises no [JSONDecodeError].  The two bytes FF FE are
    not text: [subprocess.run] raises [UnicodeDecodeError], nothing is
    printed and the process ends with status 1.  [NaN] is not JSON, yet
    [json.loads] decodes it to a float: the header is printed, the loop
    over a float raises [TypeError] and the process ends with status 1.
    Neither run prints a parse-error diagnostic. *)
Lemma list_workspaces_not_json_aborts :
  run_outcome w_binary query_argv = Garbled 0
  /\ run w_binary (Parsed list_args)
     = (1, {| printed := []; spawned := [query_argv] |})
  /\ run_outcome w_nan query_argv = Exited 0 "NaN"
  /\ json_loads_outcome w_nan "NaN" = Decoded (PFloat "nan")
  /\ run w_nan (Parsed list_args)
     = (1, {| printed := ["Active Workspaces:"]; spawned := [query_argv] |}).
Proof. repeat split; reflexivity. Qed.



(** C10.  [--name] has no effect on [list]: in the same world, [list]
    with any [--name] and [list] without one print the same lines, start
    the same command and exit with the same status. *)
Theorem list_ignores_name (w : World) (n : string) :
  run w (Parsed {| action := "list"; name := Some n |})
  = run w (Parsed {| action := "list"; name := None |}).
Proof. rewrite !run_eq, !main_list. reflexivity. Qed.

(** ** Further theorems *)

(** X1.  When the dispatch command of [create] exits with a non-zero
    status, the only line printed is ["Error creating workspace: "]
    followed by the failure detail: there is no confirmation, and the
    process still exits with status 0. *)
Theorem create_reports_failure (w : World) (n : string) (output : text) (rc : Z) :
  n <> "" ->
  run_outcome w (dispatch_argv n) = Exited rc output ->
  rc <> 0 ->
  run w (Parsed {| action := "create"; name := Some n |})
  = (0,
     {| printed := ["Error creating workspace: "
                    ++ failure_detail w (dispatch_argv n) rc];
        spawned := [dispatch_argv n] |}).
Proof.
  intros Hn Hrun Hrc.
  rewrite run_eq, (main_create w n fresh (is_empty_false n Hn)),
    create_workspace_step, Hrun. cbn [return_code].
  destruct (Z.eqb_spec rc 0) as [E | _]; [contradiction | reflexivity].
Qed.

Lemma create_reports_failure_witness :
  run w_down (Parsed {| action := "create"; name := Some "coding" |})
  = (0,
     {| printed :=
          ["Error creating workspace: Command '['hyprctl', 'dispatch', 'workspace', 'name:coding']' returned non-zero exit status 1."];
        spawned := [["hyprctl"; "dispatch"; "workspace"; "name:coding"]] |}).
Proof.
  apply (create_reports_failure w_down "coding" "" 1).
  - discriminate.
  - reflexivity.
  - lia.
Defined.

(** X2.  When [hyprctl] cannot be started, nothing catches the error:
    [list], and [create] with a non-empty name, print nothing and the
    process ends with status 1. *)
Theorem not_started_aborts (w : World) :
  (run_outcome w query_argv = NotStarted ->
   forall nm : option string,
     run w (Parsed {| action := "list"; name := nm |})
     = (1, {| printed := []; spawned := [query_argv] |}))
  /\ (forall n : string,
        n <> "" ->
        run_outcome w (dispatch_argv n) = NotStarted ->
        run w (Parsed {| action := "create"; name := Some n |})
        = (1, {| printed := []; spawned := [dispatch_argv n] |})).
Proof.
  split.
  - intros Hrun nm.
    rewrite run_eq, main_list, list_workspaces_step,
      (get_workspaces_not_started w fresh Hrun).
    reflexivity.
  - intros n Hn Hrun.
    rewrite run_eq, (main_create w n fresh (is_empty_false n Hn)),
      create_workspace_step, Hrun.
    reflexivity.
Qed.

Lemma not_started_aborts_witness :
  run w_absent (Parsed list_args)
  = (1, {| printed := []; spawned := [query_argv] |})
  /\ run w_absent (Parsed {| action := "create"; name := Some "coding" |})
     = (1, {| printed := [];
              spawned := [["hyprctl"; "dispatch"; "workspace"; "name:coding"]] |}).
Proof.
  split.
  - apply (proj1 (not_started_aborts w_absent)). reflexivity.
  - apply (proj2 (not_started_aborts w_absent) "coding").
    + discriminate.
    + reflexivity.
Defined.

(** X3.  The empty-result line is not reserved to the empty array: on any
    decoded value that is falsy ([null], [false], [0], [0.0], the empty
    string, array or object) [list_workspaces] prints
    ["No workspaces found"] and nothing else, and returns. *)
Theorem list_workspaces_falsy (w : World) (output : text) (v : pyval) :
  run_outcome w query_argv = Exited 0 output ->
  json_loads_outcome w output = Decoded v ->
  PyVal.truthy v = false ->
  list_workspaces w fresh
  = (inr tt, {| printed := ["No workspaces found"]; spawned := [query_argv] |}).
Proof.
  intros Hrun Hloads Hv.
  rewrite list_workspaces_step,
    (get_workspaces_decoded w fresh output v Hrun Hloads), Hv.
  reflexivity.
Qed.

Lemma list_workspaces_falsy_witness :
  list_workspaces w_null fresh
  = (inr tt, {| printed := ["No workspaces found"]; spawned := [query_argv] |}).
Proof.
  apply (list_workspaces_falsy w_null "null" PNone); reflexivity.
Defined.



(** X5.  A run starts at most one external command, whatever the command
    line and whatever the world answers. *)
Theorem at_most_one_command (w : World) (cli : ParseOutcome) :
  (length (spawned (snd (run w cli))) <= 1)%nat.
Proof.
  rewrite run_eq. cbn [snd]. destruct cli as [args | code]; [ | cbn; lia].
  rewrite main_cases.
  destruct (String.eqb (action args) "list").
  - rewrite (proj1 (list_workspaces_quiet w fresh)). cbn. lia.
  - destruct (String.eqb (action args) "create"); [ | cbn; lia].
    destruct (no_name (name args)); [cbn; lia | ].
    rewrite create_workspace_spawns_once. cbn. lia.
Qed.

(** X6.  Whatever the name, [create_workspace] runs
    [hyprctl dispatch workspace] and the first argument after these words
    is [name:] followed by the name up to its first whitespace
    character. *)
Theorem dispatch_command_shape (w : World) (n : string) :
  exists (p q : string) (rest : list string),
    n = (p ++ q)%string /\ no_space p = true /\ word_end q = true
    /\ spawned (snd (create_workspace w n fresh))
       = [ "hyprctl" :: "dispatch" :: "workspace" :: ("name:" ++ p)%string :: rest ].
Proof.
  destruct (split_from_first_word n "name:" eq_refl)
    as (p & q & rest & Hn & Hp & Hq & Hsplit).
  exists p, q, rest. repeat split; try assumption.
  rewrite create_workspace_spawns_once, dispatch_argv_words, Hsplit.
  reflexivity.
Qed.

(** X7.  A name without whitespace reaches [hyprctl] unchanged, as the
    single argument [name:<name>]. *)
Theorem create_passes_plain_name (w : World) (n : string) :
  no_space n = true ->
  spawned (snd (create_workspace w n fresh))
  = [["hyprctl"; "dispatch"; "workspace"; "name:" ++ n]].
Proof.
  intros Hn. rewrite create_workspace_spawns_once, (dispatch_argv_plain n Hn).
  reflexivity.
Qed.

Lemma create_passes_plain_name_witness :
  spawned (snd (create_workspace w_snapshot "coding" fresh))
  = [["hyprctl"; "dispatch"; "workspace"; "name:coding"]].
Proof.
  apply (create_passes_plain_name w_snapshot "coding"). reflexivity.
Defined.

(** X8.  A name made only of whitespace passes the [--name] check of
    [main], and the command then run carries no name at all: its last
    argument is the bare [name:]. *)
Theorem create_blank_name (w : World) (n : string) :
  n <> "" ->
  all_space n = true ->
  spawned (snd (run w (Parsed {| action := "create"; name := Some n |})))
  = [["hyprctl"; "dispatch"; "workspace"; "name:"]].
Proof.
  intros Hn Hblank.
  rewrite run_eq. cbn [snd].
  rewrite (main_create w n fresh (is_empty_false n Hn)),
    create_workspace_spawns_once, dispatch_argv_words,
    (split_from_blank n "name:" Hblank).
  reflexivity.
Qed.

Lemma create_blank_name_witness :
  spawned (snd (run w_snapshot (Parsed {| action := "create"; name := Some " " |})))
  = [["hyprctl"; "dispatch"; "workspace"; "name:"]].
Proof.
  apply (create_blank_name w_snapshot " ").
  - discriminate.
  - reflexivity.
Defined.

(** X9.  A whitespace character at the end of the name is lost: the name
    with it and the name without it run the same command. *)
Theorem create_drops_trailing_space (w : World) (n : string) (c : ascii) :
  PyStr.isspace c = true ->
  spawned (snd (create_workspace w (n ++ String c EmptyString) fresh))
  = spawned (snd (create_workspace w n fresh)).
Proof.
  intros Hc.
  rewrite !create_workspace_spawns_once, !dispatch_argv_words,
    (split_from_trailing c n Hc).
  reflexivity.
Qed.

Lemma create_drops_trailing_space_witness :
  spawned (snd (create_workspace w_snapshot "coding " fresh))
  = spawned (snd (create_workspace w_snapshot "coding" fresh)).
Proof.
  apply (create_drops_trailing_space w_snapshot "coding" " "). reflexivity.
Defined.

(** X10.  Once the command line is parsed, the process exits with status
    0 or 1, whatever the world answers: no other status comes from the
    script. *)
Theorem exit_status_zero_or_one (w : World) (args : Namespace) :
  fst (run w (Parsed args)) = 0 \/ fst (run w (Parsed args)) = 1.
Proof.
  rewrite run_eq. cbn [fst]. rewrite main_cases.
  destruct (String.eqb (action args) "list").
  - exact (proj2 (list_workspaces_quiet w fresh)).
  - destruct (String.eqb (action args) "create"); [ | left; reflexivity].
    destruct (no_name (name args)); [right; reflexivity | ].
    rewrite create_workspace_step.
    destruct (return_code (run_outcome w (dispatch_argv (name_text (name args)))));
      [left | right]; reflexivity.
Qed.

(** X11.  [list] runs [hyprctl workspaces -j] once and starts nothing
    else, whether the query succeeds, fails, or its output makes the
    listing stop half-way. *)
Theorem list_runs_query_once (w : World) (nm : option string) :
  spawned (snd (run w (Parsed {| action := "list"; name := nm |})))
  = [query_argv].
Proof.
  rewrite run_eq. cbn [snd]. rewrite main_list.
  exact (proj1 (list_workspaces_quiet w fresh)).
Qed.


